(** * Directory settings: override resolution and gating

    A shallow embedding of [src/components/settings/DirectorySettings.tsx]:
    the [DirectorySettings] component, its [DirectoryInput] child, the values
    they display, the controls they disable and the callbacks they invoke.

    A TypeScript [string | undefined] is an [option string]; a callback prop
    is a function into a type [E] of effects, so that a rendered control
    carries the effect its handler would perform.  The JSX tree is kept as a
    record of its interactive elements (inputs, buttons, switches) with the
    attributes the source passes to them. *)

From stdpp Require Import strings functions gmap.

Open Scope string_scope.

(** ** Identifiers and resolved defaults *)

(** [AppId] of [@/lib/api]: the string literals the component passes to its
    per-app callbacks, ["claude"], ["codex"] and ["gemini"]. *)
Inductive AppId : Type := Claude | Codex | Gemini.

#[global] Instance AppId_eq_dec : EqDecision AppId.
Proof. solve_decision. Defined.

Definition AppId_to_nat (a : AppId) : nat :=
  match a with Claude => 0 | Codex => 1 | Gemini => 2 end.

Definition AppId_of_nat (n : nat) : option AppId :=
  match n with
  | 0 => Some Claude
  | 1 => Some Codex
  | 2 => Some Gemini
  | _ => None
  end.

#[global] Program Instance AppId_countable : Countable AppId :=
  inj_countable AppId_to_nat AppId_of_nat _.
Next Obligation. by intros []. Qed.

(** Modelled from the spec: the type [ResolvedDirectories] of
    [@/hooks/useSettings], a non-optional path for the host application and
    for each managed app.  The component reads the four fields below. *)
Record ResolvedDirectories : Type := {
  appConfig : string;
  claude : string;
  codex : string;
  gemini : string;
}.

Definition resolvedFor (r : ResolvedDirectories) (app : AppId) : string :=
  match app with
  | Claude => claude r
  | Codex => codex r
  | Gemini => gemini r
  end.

(** ** Nullish coalescing *)

(** JavaScript [a ?? b]: [a] unless it is [undefined]. *)
Definition nullish {A : Type} (a : option A) (b : A) : A :=
  match a with
  | Some x => x
  | None => b
  end.

Infix "??" := nullish (at level 45, left associativity).

(** JavaScript truthiness of an optional boolean attribute. *)
Definition truthy (b : option bool) : bool := nullish b false.

(** ** The rendered controls *)

Section View.
Context {E : Type}.

(** [<Input value placeholder disabled onChange />] *)
Record InputView : Type := {
  input_value : string;
  input_placeholder : option string;
  input_disabled : option bool;
  input_onChange : string -> E;
}.

(** [<Button disabled onClick title />] *)
Record ButtonView : Type := {
  button_disabled : option bool;
  button_onClick : E;
  button_title : string;
}.

(** [<Switch checked onCheckedChange />] *)
Record SwitchView : Type := {
  switch_checked : bool;
  switch_onCheckedChange : bool -> E;
}.

(** What [DirectoryInput] returns. *)
Record DirectoryInputView : Type := {
  di_label : string;
  di_description : option string;
  di_input : InputView;
  di_browse : ButtonView;
  di_reset : ButtonView;
}.

(** What [DirectorySettings] returns. *)
Record DirectorySettingsView : Type := {
  appConfigInput : InputView;
  appConfigBrowse : ButtonView;
  appConfigReset : ButtonView;
  overridesSwitch : SwitchView;
  syncSwitch : SwitchView;
  claudeInput : DirectoryInputView;
  codexInput : DirectoryInputView;
  geminiInput : DirectoryInputView;
}.

Definition directoryInputOf (v : DirectorySettingsView) (app : AppId)
  : DirectoryInputView :=
  match app with
  | Claude => claudeInput v
  | Codex => codexInput v
  | Gemini => geminiInput v
  end.
End View.

Arguments InputView : clear implicits.
Arguments ButtonView : clear implicits.
Arguments SwitchView : clear implicits.
Arguments DirectoryInputView : clear implicits.
Arguments DirectorySettingsView : clear implicits.

(** ** The components *)

Section Components.
Context {E : Type}.

(** [useTranslation().t] *)
Variable t : string -> string.

(** [interface DirectoryInputProps] *)
Record DirectoryInputProps : Type := {
  label : string;
  description : option string;
  value : option string;
  resolvedValue : string;
  placeholder : option string;
  disabled : option bool;
  onChange : option string -> E;
  onBrowse : E;
  onReset : E;
}.

(** [value ?? resolvedValue ?? ''] with the empty string last: the inner
    coalescing yields a string, which is never [undefined]. *)
Definition displayValue (value : option string) (resolvedValue : string)
  : string :=
  Some (value ?? resolvedValue) ?? EmptyString.

(** [description ? <p>...</p> : null]: shown when truthy. *)
Definition shownDescription (description : option string) : option string :=
  match description with
  | Some d => if decide (d = EmptyString) then None else Some d
  | None => None
  end.

(** [function DirectoryInput] *)
Definition DirectoryInput (p : DirectoryInputProps) : DirectoryInputView E :=
  {| di_label := label p;
     di_description := shownDescription (description p);
     di_input :=
       {| input_value := displayValue (value p) (resolvedValue p);
          input_placeholder := placeholder p;
          input_disabled := disabled p;
          input_onChange := fun target_value => onChange p (Some target_value) |};
     di_browse :=
       {| button_disabled := disabled p;
          button_onClick := onBrowse p;
          button_title := t "settings.browseDirectory" |};
     di_reset :=
       {| button_disabled := disabled p;
          button_onClick := onReset p;
          button_title := t "settings.resetDefault" |} |}.

(** [interface DirectorySettingsProps] *)
Record DirectorySettingsProps : Type := {
  appConfigDir : option string;
  resolvedDirs : ResolvedDirectories;
  onAppConfigChange : option string -> E;
  onBrowseAppConfig : E;
  onResetAppConfig : E;
  enableConfigDirOverrides : bool;
  syncProviderSwitchToBothConfigDirs : bool;
  onEnableConfigDirOverridesChange : bool -> E;
  onSyncProviderSwitchToBothConfigDirsChange : bool -> E;
  claudeDir : option string;
  codexDir : option string;
  geminiDir : option string;
  onDirectoryChange : AppId -> option string -> E;
  onBrowseDirectory : AppId -> E;
  onResetDirectory : AppId -> E;
}.

(** The override prop of an app. *)
Definition dirFor (p : DirectorySettingsProps) (app : AppId) : option string :=
  match app with
  | Claude => claudeDir p
  | Codex => codexDir p
  | Gemini => geminiDir p
  end.

(** [function DirectorySettings] *)
Definition DirectorySettings (p : DirectorySettingsProps)
  : DirectorySettingsView E :=
  {| appConfigInput :=
       {| input_value := Some (appConfigDir p ?? appConfig (resolvedDirs p)) ?? EmptyString;
          input_placeholder := Some (t "settings.browsePlaceholderApp");
          input_disabled := None;
          input_onChange := fun target_value => onAppConfigChange p (Some target_value) |};
     appConfigBrowse :=
       {| button_disabled := None;
          button_onClick := onBrowseAppConfig p;
          button_title := t "settings.browseDirectory" |};
     appConfigReset :=
       {| button_disabled := None;
          button_onClick := onResetAppConfig p;
          button_title := t "settings.resetDefault" |};
     overridesSwitch :=
       {| switch_checked := enableConfigDirOverrides p;
          switch_onCheckedChange := onEnableConfigDirOverridesChange p |};
     syncSwitch :=
       {| switch_checked := syncProviderSwitchToBothConfigDirs p;
          switch_onCheckedChange := onSyncProviderSwitchToBothConfigDirsChange p |};
     claudeInput :=
       DirectoryInput
         {| label := t "settings.claudeConfigDir";
            description := None;
            value := claudeDir p;
            resolvedValue := claude (resolvedDirs p);
            placeholder := Some (t "settings.browsePlaceholderClaude");
            disabled := Some (negb (enableConfigDirOverrides p));
            onChange := fun val => onDirectoryChange p Claude val;
            onBrowse := onBrowseDirectory p Claude;
            onReset := onResetDirectory p Claude |};
     codexInput :=
       DirectoryInput
         {| label := t "settings.codexConfigDir";
            description := None;
            value := codexDir p;
            resolvedValue := codex (resolvedDirs p);
            placeholder := Some (t "settings.browsePlaceholderCodex");
            disabled := Some (negb (enableConfigDirOverrides p));
            onChange := fun val => onDirectoryChange p Codex val;
            onBrowse := onBrowseDirectory p Codex;
            onReset := onResetDirectory p Codex |};
     geminiInput :=
       DirectoryInput
         {| label := t "settings.geminiConfigDir";
            description := None;
            value := geminiDir p;
            resolvedValue := gemini (resolvedDirs p);
            placeholder := Some (t "settings.browsePlaceholderGemini");
            disabled := Some (negb (enableConfigDirOverrides p));
            onChange := fun val => onDirectoryChange p Gemini val;
            onBrowse := onBrowseDirectory p Gemini;
            onReset := onResetDirectory p Gemini |} |}.
End Components.

Arguments DirectoryInputProps : clear implicits.
Arguments DirectorySettingsProps : clear implicits.

(** ** User events *)

(** Modelled from the spec: [Input], [Button] and [Switch] of
    [@/components/ui] are not part of this file.  They are taken to hand
    their attributes to the native control (the spec's "render as disabled",
    "whether edits are accepted"): a disabled input or button dispatches
    nothing; an enabled input calls [onChange] with an event whose
    [target.value] is the text now in the field, a button calls [onClick], a
    switch calls [onCheckedChange] with its new position. *)
Section Events.
Context {E : Type}.

Definition changeInput (i : InputView E) (text : string) : option E :=
  if truthy (input_disabled i) then None else Some (input_onChange i text).

Definition clickButton (b : ButtonView E) : option E :=
  if truthy (button_disabled b) then None else Some (button_onClick b).

Definition toggleSwitch (s : SwitchView E) (checked : bool) : option E :=
  Some (switch_onCheckedChange s checked).

(** The rows of the panel: the host application's own directory, and one
    row per app. *)
Inductive Row : Type := HostRow | AppRow (app : AppId).

Definition inputAt (v : DirectorySettingsView E) (r : Row) : InputView E :=
  match r with
  | HostRow => appConfigInput v
  | AppRow app => di_input (directoryInputOf v app)
  end.

Definition browseAt (v : DirectorySettingsView E) (r : Row) : ButtonView E :=
  match r with
  | HostRow => appConfigBrowse v
  | AppRow app => di_browse (directoryInputOf v app)
  end.

Definition resetAt (v : DirectorySettingsView E) (r : Row) : ButtonView E :=
  match r with
  | HostRow => appConfigReset v
  | AppRow app => di_reset (directoryInputOf v app)
  end.

(** What a user can do to the panel. *)
Inductive UIEvent : Type :=
| Typed (r : Row) (text : string)
| BrowseClicked (r : Row)
| ResetClicked (r : Row)
| OverridesToggled (checked : bool)
| SyncToggled (checked : bool).

(** The callback a user event invokes, if any. *)
Definition fire (v : DirectorySettingsView E) (e : UIEvent) : option E :=
  match e with
  | Typed r text => changeInput (inputAt v r) text
  | BrowseClicked r => clickButton (browseAt v r)
  | ResetClicked r => clickButton (resetAt v r)
  | OverridesToggled checked => toggleSwitch (overridesSwitch v) checked
  | SyncToggled checked => toggleSwitch (syncSwitch v) checked
  end.

Definition isEditable (i : InputView E) : bool := negb (truthy (input_disabled i)).
Definition isClickable (b : ButtonView E) : bool := negb (truthy (button_disabled b)).
End Events.

(** ** Recording the callbacks *)

(** One constructor per callback prop of [DirectorySettingsProps], with the
    arguments of the call. *)
Inductive Call : Type :=
| AppConfigChange (value : option string)
| BrowseAppConfig
| ResetAppConfig
| EnableConfigDirOverridesChange (enabled : bool)
| SyncProviderSwitchToBothConfigDirsChange (enabled : bool)
| DirectoryChange (app : AppId) (value : option string)
| BrowseDirectory (app : AppId)
| ResetDirectory (app : AppId).

#[global] Instance Call_eq_dec : EqDecision Call.
Proof. solve_decision. Defined.

(** The app a call is about: [onDirectoryChange], [onBrowseDirectory] and
    [onResetDirectory] take one, the other callbacks none. *)
Definition callApp (c : Call) : option AppId :=
  match c with
  | DirectoryChange app _ | BrowseDirectory app | ResetDirectory app => Some app
  | _ => None
  end.

(** The value a change callback is given. *)
Definition callValue (c : Call) : option (option string) :=
  match c with
  | AppConfigChange value | DirectoryChange _ value => Some value
  | _ => None
  end.

Section Recording.
Context {E : Type}.

(** The same props with every callback replaced by a recorder. *)
Definition recording (p : DirectorySettingsProps E) : DirectorySettingsProps Call :=
  {| appConfigDir := appConfigDir p;
     resolvedDirs := resolvedDirs p;
     onAppConfigChange := AppConfigChange;
     onBrowseAppConfig := BrowseAppConfig;
     onResetAppConfig := ResetAppConfig;
     enableConfigDirOverrides := enableConfigDirOverrides p;
     syncProviderSwitchToBothConfigDirs := syncProviderSwitchToBothConfigDirs p;
     onEnableConfigDirOverridesChange := EnableConfigDirOverridesChange;
     onSyncProviderSwitchToBothConfigDirsChange :=
       SyncProviderSwitchToBothConfigDirsChange;
     claudeDir := claudeDir p;
     codexDir := codexDir p;
     geminiDir := geminiDir p;
     onDirectoryChange := DirectoryChange;
     onBrowseDirectory := BrowseDirectory;
     onResetDirectory := ResetDirectory |}.

(** Performing a recorded call with the real callbacks. *)
Definition invoke (p : DirectorySettingsProps E) (c : Call) : E :=
  match c with
  | AppConfigChange value => onAppConfigChange p value
  | BrowseAppConfig => onBrowseAppConfig p
  | ResetAppConfig => onResetAppConfig p
  | EnableConfigDirOverridesChange enabled => onEnableConfigDirOverridesChange p enabled
  | SyncProviderSwitchToBothConfigDirsChange enabled =>
      onSyncProviderSwitchToBothConfigDirsChange p enabled
  | DirectoryChange app value => onDirectoryChange p app value
  | BrowseDirectory app => onBrowseDirectory p app
  | ResetDirectory app => onResetDirectory p app
  end.
End Recording.

(** ** The settings state *)

(** Modelled from the spec: the state container behind the panel (the hook
    of [@/hooks/useSettings] and the page that renders [DirectorySettings])
    is not part of this file.  [DirectorySettingsState] is the aggregate of
    the spec's data model: an optional override for the host application,
    one optional override per app (a total map, so never partial), the gate
    and the sync flag. *)
Record DirectorySettingsState : Type := {
  appConfigOverride : option string;
  perAppOverride : AppId -> option string;
  overridesEnabled : bool;
  syncToBothConfigDirs : bool;
}.

(** Modelled from the spec: the mutation contract of the state, "replaces
    [appConfigOverride] unconditionally", "replaces the entry for [app]",
    "replaces the gate; no cascading mutation", "replaces the flag", and the
    two resets as the setters at [absent]. *)
Definition setAppConfigOverride (value : option string)
  (st : DirectorySettingsState) : DirectorySettingsState :=
  {| appConfigOverride := value;
     perAppOverride := perAppOverride st;
     overridesEnabled := overridesEnabled st;
     syncToBothConfigDirs := syncToBothConfigDirs st |}.

Definition setPerAppOverride (app : AppId) (value : option string)
  (st : DirectorySettingsState) : DirectorySettingsState :=
  {| appConfigOverride := appConfigOverride st;
     perAppOverride := <[app := value]> (perAppOverride st);
     overridesEnabled := overridesEnabled st;
     syncToBothConfigDirs := syncToBothConfigDirs st |}.

Definition setOverridesEnabled (enabled : bool)
  (st : DirectorySettingsState) : DirectorySettingsState :=
  {| appConfigOverride := appConfigOverride st;
     perAppOverride := perAppOverride st;
     overridesEnabled := enabled;
     syncToBothConfigDirs := syncToBothConfigDirs st |}.

Definition setSyncToBothConfigDirs (enabled : bool)
  (st : DirectorySettingsState) : DirectorySettingsState :=
  {| appConfigOverride := appConfigOverride st;
     perAppOverride := perAppOverride st;
     overridesEnabled := overridesEnabled st;
     syncToBothConfigDirs := enabled |}.

Definition resetAppConfigOverride (st : DirectorySettingsState)
  : DirectorySettingsState :=
  setAppConfigOverride None st.

Definition resetPerAppOverride (app : AppId) (st : DirectorySettingsState)
  : DirectorySettingsState :=
  setPerAppOverride app None st.

(** The override a row stores, and its setter. *)
Definition overrideAt (st : DirectorySettingsState) (r : Row) : option string :=
  match r with
  | HostRow => appConfigOverride st
  | AppRow app => perAppOverride st app
  end.

Definition setOverrideAt (r : Row) (value : option string)
  (st : DirectorySettingsState) : DirectorySettingsState :=
  match r with
  | HostRow => setAppConfigOverride value st
  | AppRow app => setPerAppOverride app value st
  end.

(** Modelled from the spec: the dispatcher's [browse].  The native picker
    answers with a path, with nothing (the user cancelled) or fails to open;
    "a successful browse feeds its path directly into the corresponding
    set*Override operation", a cancellation "yields no mutation", and a
    [BrowseError] "leaves state unchanged" and is surfaced. *)
Inductive BrowseError : Type := DialogFailed (reason : string).

Inductive BrowseOutcome : Type :=
| Selected (path : string)
| Cancelled
| Failed (err : BrowseError).

Definition completeBrowse (r : Row) (outcome : BrowseOutcome)
  (st : DirectorySettingsState) : DirectorySettingsState * option BrowseError :=
  match outcome with
  | Selected path => (setOverrideAt r (Some path) st, None)
  | Cancelled => (st, None)
  | Failed err => (st, Some err)
  end.

(** Modelled from the spec: how the page wires the panel to the state.  The
    stored values are passed as the props ([propsOf]), and each callback
    runs the operation of the same name ([handle]); [dialog] is what the
    native picker answers should the call open it. *)
Definition propsOf (st : DirectorySettingsState) (resolved : ResolvedDirectories)
  : DirectorySettingsProps Call :=
  {| appConfigDir := appConfigOverride st;
     resolvedDirs := resolved;
     onAppConfigChange := AppConfigChange;
     onBrowseAppConfig := BrowseAppConfig;
     onResetAppConfig := ResetAppConfig;
     enableConfigDirOverrides := overridesEnabled st;
     syncProviderSwitchToBothConfigDirs := syncToBothConfigDirs st;
     onEnableConfigDirOverridesChange := EnableConfigDirOverridesChange;
     onSyncProviderSwitchToBothConfigDirsChange :=
       SyncProviderSwitchToBothConfigDirsChange;
     claudeDir := perAppOverride st Claude;
     codexDir := perAppOverride st Codex;
     geminiDir := perAppOverride st Gemini;
     onDirectoryChange := DirectoryChange;
     onBrowseDirectory := BrowseDirectory;
     onResetDirectory := ResetDirectory |}.

Definition handle (c : Call) (dialog : BrowseOutcome)
  (st : DirectorySettingsState) : DirectorySettingsState :=
  match c with
  | AppConfigChange value => setAppConfigOverride value st
  | BrowseAppConfig => fst (completeBrowse HostRow dialog st)
  | ResetAppConfig => resetAppConfigOverride st
  | EnableConfigDirOverridesChange enabled => setOverridesEnabled enabled st
  | SyncProviderSwitchToBothConfigDirsChange enabled =>
      setSyncToBothConfigDirs enabled st
  | DirectoryChange app value => setPerAppOverride app value st
  | BrowseDirectory app => fst (completeBrowse (AppRow app) dialog st)
  | ResetDirectory app => resetPerAppOverride app st
  end.

Section Session.
Variable t : string -> string.
Variable resolved : ResolvedDirectories.

(** One user event on the panel as rendered from the state. *)
Definition step (st : DirectorySettingsState) (ev : UIEvent * BrowseOutcome)
  : DirectorySettingsState :=
  match fire (DirectorySettings t (propsOf st resolved)) (fst ev) with
  | Some c => handle c (snd ev) st
  | None => st
  end.

(** A session: the events in order, each on the panel re-rendered from the
    state the previous ones left. *)
Definition run (st : DirectorySettingsState) (evs : list (UIEvent * BrowseOutcome))
  : DirectorySettingsState :=
  foldl step st evs.
End Session.

(** ** Provider-switch fan-out *)

(** Modelled from the spec: [targetsFor] of the sync propagation policy is
    not part of this file.  The type of directory targets, the target of an
    app and the companion directory are external configuration. *)
Section SyncPropagationPolicy.
Context {DirectoryTarget : Type} `{Countable DirectoryTarget}.
Variable appTarget : AppId -> DirectoryTarget.
Variable companion : AppId -> DirectoryTarget.

Definition targetsFor (syncEnabled : bool) (primaryApp : AppId)
  : gset DirectoryTarget :=
  if syncEnabled
  then {[ appTarget primaryApp; companion primaryApp ]}
  else {[ appTarget primaryApp ]}.
End SyncPropagationPolicy.

(** ** The spec's gate contract *)

(** The contract of the override gate in the spec's words,
    [isOverrideEditable(overridesEnabled)] is "trivially [overridesEnabled]";
    it is compared below with what the component renders. *)
Definition isOverrideEditable (overridesEnabled : bool) : bool := overridesEnabled.

(** The path a browse outcome selects, if any. *)
Definition selection (outcome : BrowseOutcome) : option string :=
  match outcome with
  | Selected path => Some path
  | Cancelled | Failed _ => None
  end.

(** ** Sample inputs *)

Definition sampleResolved : ResolvedDirectories :=
  {| appConfig := "/home/u/.cc-switch";
     claude := "/home/u/.claude";
     codex := "/home/u/.codex";
     gemini := "/home/u/.gemini" |}.

(** The gate is off and an override is passed for claude. *)
Definition gateOffCustomClaude : DirectorySettingsProps Call :=
  {| appConfigDir := None;
     resolvedDirs := sampleResolved;
     onAppConfigChange := AppConfigChange;
     onBrowseAppConfig := BrowseAppConfig;
     onResetAppConfig := ResetAppConfig;
     enableConfigDirOverrides := false;
     syncProviderSwitchToBothConfigDirs := false;
     onEnableConfigDirOverridesChange := EnableConfigDirOverridesChange;
     onSyncProviderSwitchToBothConfigDirsChange :=
       SyncProviderSwitchToBothConfigDirsChange;
     claudeDir := Some "/custom/claude";
     codexDir := None;
     geminiDir := None;
     onDirectoryChange := DirectoryChange;
     onBrowseDirectory := BrowseDirectory;
     onResetDirectory := ResetDirectory |}.

(** The state of the spec's scenario after the override was stored. *)
Definition gateOffState : DirectorySettingsState :=
  {| appConfigOverride := None;
     perAppOverride := <[Claude := Some "/custom/claude"]> (λ _, None);
     overridesEnabled := false;
     syncToBothConfigDirs := false |}.

(** Directory targets named by their paths, with one shared companion. *)
Definition sampleAppTarget (app : AppId) : string := resolvedFor sampleResolved app.
Definition sampleCompanion (app : AppId) : string := "/mnt/shared/companion".


(** ** The display value at run time *)

(** [a ?? b] where [b] may itself be [undefined]. *)
Definition nullishOr {A : Type} (a b : option A) : option A :=
  match a with
  | Some x => Some x
  | None => b
  end.

(** [value ?? resolvedValue ?? ''] on the values JavaScript can hand the
    expression: [resolvedValue] is declared a string, and the trailing
    empty string is what the input gets should it be [undefined] all the
    same.  [??] associates to the left. *)
Definition displayValueUnchecked (value resolvedValue : option string) : string :=
  nullishOr value resolvedValue ?? EmptyString.

(** ** Memoising the display value *)

(** React's [useMemo(factory, deps)] in one component instance: the cell
    keeps the dependencies and the value of the last computation; the
    factory runs on the first render and whenever a dependency differs from
    the stored one, and the stored value is returned otherwise. *)
Section UseMemo.
Context {D V : Type} `{EqDecision D}.

Record MemoCell : Type := {
  memo_deps : D;
  memo_value : V;
}.

Definition useMemo (cell : option MemoCell) (factory : unit -> V) (deps : D)
  : V * MemoCell :=
  match cell with
  | Some m =>
      if decide (memo_deps m = deps)
      then (memo_value m, m)
      else (factory tt, {| memo_deps := deps; memo_value := factory tt |})
  | None => (factory tt, {| memo_deps := deps; memo_value := factory tt |})
  end.
End UseMemo.

Arguments MemoCell : clear implicits.

(** [const displayValue = useMemo(() => value ?? resolvedValue ?? '',
    [value, resolvedValue])] of [DirectoryInput]. *)
Definition displayValueMemo (cell : option (MemoCell (option string * string) string))
  (value : option string) (resolvedValue : string)
  : string * MemoCell (option string * string) string :=
  useMemo cell (fun _ => Some (value ?? resolvedValue) ?? EmptyString)
    (value, resolvedValue).

(** The values one [DirectoryInput] displays over successive renders, given
    the [value] and [resolvedValue] props of each render. *)
Fixpoint displayedOver (cell : option (MemoCell (option string * string) string))
  (renders : list (option string * string)) : list string :=
  match renders with
  | [] => []
  | (value, resolvedValue) :: rest =>
      let (shown, cell') := displayValueMemo cell value resolvedValue in
      shown :: displayedOver (Some cell') rest
  end.

(** ** Reading a view and a call *)

(** The same props with another position of the gate. *)
Definition withGate {E : Type} (enabled : bool) (p : DirectorySettingsProps E)
  : DirectorySettingsProps E :=
  {| appConfigDir := appConfigDir p;
     resolvedDirs := resolvedDirs p;
     onAppConfigChange := onAppConfigChange p;
     onBrowseAppConfig := onBrowseAppConfig p;
     onResetAppConfig := onResetAppConfig p;
     enableConfigDirOverrides := enabled;
     syncProviderSwitchToBothConfigDirs := syncProviderSwitchToBothConfigDirs p;
     onEnableConfigDirOverridesChange := onEnableConfigDirOverridesChange p;
     onSyncProviderSwitchToBothConfigDirsChange :=
       onSyncProviderSwitchToBothConfigDirsChange p;
     claudeDir := claudeDir p;
     codexDir := codexDir p;
     geminiDir := geminiDir p;
     onDirectoryChange := onDirectoryChange p;
     onBrowseDirectory := onBrowseDirectory p;
     onResetDirectory := onResetDirectory p |}.

(** The same props with another override for one app. *)
Definition withDir {E : Type} (app : AppId) (value : option string)
  (p : DirectorySettingsProps E) : DirectorySettingsProps E :=
  {| appConfigDir := appConfigDir p;
     resolvedDirs := resolvedDirs p;
     onAppConfigChange := onAppConfigChange p;
     onBrowseAppConfig := onBrowseAppConfig p;
     onResetAppConfig := onResetAppConfig p;
     enableConfigDirOverrides := enableConfigDirOverrides p;
     syncProviderSwitchToBothConfigDirs := syncProviderSwitchToBothConfigDirs p;
     onEnableConfigDirOverridesChange := onEnableConfigDirOverridesChange p;
     onSyncProviderSwitchToBothConfigDirsChange :=
       onSyncProviderSwitchToBothConfigDirsChange p;
     claudeDir := if decide (app = Claude) then value else claudeDir p;
     codexDir := if decide (app = Codex) then value else codexDir p;
     geminiDir := if decide (app = Gemini) then value else geminiDir p;
     onDirectoryChange := onDirectoryChange p;
     onBrowseDirectory := onBrowseDirectory p;
     onResetDirectory := onResetDirectory p |}.

(** The override and the resolved default the props hold for a row. *)
Definition overrideProp {E : Type} (p : DirectorySettingsProps E) (r : Row)
  : option string :=
  match r with
  | HostRow => appConfigDir p
  | AppRow app => dirFor p app
  end.

Definition defaultProp {E : Type} (p : DirectorySettingsProps E) (r : Row) : string :=
  match r with
  | HostRow => appConfig (resolvedDirs p)
  | AppRow app => resolvedFor (resolvedDirs p) app
  end.

(** The placeholder of a row's input. *)
Definition placeholderAt {E : Type} (v : DirectorySettingsView E) (r : Row)
  : option string :=
  input_placeholder (inputAt v r).

(** The kinds of control on the panel. *)
Inductive ControlKind : Type :=
| TextInput
| BrowseButton
| ResetButton
| GateSwitch
| SyncSwitch.

#[global] Instance ControlKind_eq_dec : EqDecision ControlKind.
Proof. solve_decision. Defined.

#[global] Instance Row_eq_dec : EqDecision Row.
Proof. solve_decision. Defined.

#[global] Instance UIEvent_eq_dec : EqDecision UIEvent.
Proof. solve_decision. Defined.

(** The control an event happens on. *)
Definition eventKind (e : UIEvent) : ControlKind :=
  match e with
  | Typed _ _ => TextInput
  | BrowseClicked _ => BrowseButton
  | ResetClicked _ => ResetButton
  | OverridesToggled _ => GateSwitch
  | SyncToggled _ => SyncSwitch
  end.

Definition eventRow (e : UIEvent) : option Row :=
  match e with
  | Typed r _ | BrowseClicked r | ResetClicked r => Some r
  | OverridesToggled _ | SyncToggled _ => None
  end.

(** The control a callback prop belongs to, by its name. *)
Definition callKind (c : Call) : ControlKind :=
  match c with
  | AppConfigChange _ | DirectoryChange _ _ => TextInput
  | BrowseAppConfig | BrowseDirectory _ => BrowseButton
  | ResetAppConfig | ResetDirectory _ => ResetButton
  | EnableConfigDirOverridesChange _ => GateSwitch
  | SyncProviderSwitchToBothConfigDirsChange _ => SyncSwitch
  end.

Definition callRow (c : Call) : option Row :=
  match c with
  | AppConfigChange _ | BrowseAppConfig | ResetAppConfig => Some HostRow
  | DirectoryChange app _ | BrowseDirectory app | ResetDirectory app =>
      Some (AppRow app)
  | EnableConfigDirOverridesChange _
  | SyncProviderSwitchToBothConfigDirsChange _ => None
  end.

(** ** Translation keys *)





(** * Properties *)

(** ** What the component renders *)

Section ComponentFacts.
Context {E : Type}.
Variable t : string -> string.
Implicit Types (p : DirectorySettingsProps E) (app : AppId) (r : Row).

Lemma displayValue_nullish (value : option string) (resolvedValue : string) :
  displayValue value resolvedValue = value ?? resolvedValue.
Proof. reflexivity. Qed.

Lemma app_input_value p app :
  input_value (di_input (directoryInputOf (DirectorySettings t p) app))
  = displayValue (dirFor p app) (resolvedFor (resolvedDirs p) app).
Proof. by destruct app. Qed.

Lemma app_input_disabled p app :
  input_disabled (di_input (directoryInputOf (DirectorySettings t p) app))
  = Some (negb (enableConfigDirOverrides p)).
Proof. by destruct app. Qed.

Lemma app_browse_disabled p app :
  button_disabled (di_browse (directoryInputOf (DirectorySettings t p) app))
  = Some (negb (enableConfigDirOverrides p)).
Proof. by destruct app. Qed.

Lemma app_reset_disabled p app :
  button_disabled (di_reset (directoryInputOf (DirectorySettings t p) app))
  = Some (negb (enableConfigDirOverrides p)).
Proof. by destruct app. Qed.

(** Which callback each event reaches, and with which arguments. *)
Lemma fire_typed_host p text :
  fire (DirectorySettings t p) (Typed HostRow text)
  = Some (onAppConfigChange p (Some text)).
Proof. reflexivity. Qed.

Lemma fire_typed_app p app text :
  fire (DirectorySettings t p) (Typed (AppRow app) text)
  = if enableConfigDirOverrides p
    then Some (onDirectoryChange p app (Some text))
    else None.
Proof. by destruct app, (enableConfigDirOverrides p) eqn:Hgate; cbn; rewrite ?Hgate. Qed.

Lemma fire_browse_app p app :
  fire (DirectorySettings t p) (BrowseClicked (AppRow app))
  = if enableConfigDirOverrides p then Some (onBrowseDirectory p app) else None.
Proof. by destruct app, (enableConfigDirOverrides p) eqn:Hgate; cbn; rewrite ?Hgate. Qed.

Lemma fire_reset_app p app :
  fire (DirectorySettings t p) (ResetClicked (AppRow app))
  = if enableConfigDirOverrides p then Some (onResetDirectory p app) else None.
Proof. by destruct app, (enableConfigDirOverrides p) eqn:Hgate; cbn; rewrite ?Hgate. Qed.

(** The recorder sees exactly the calls the real callbacks receive. *)
Lemma fire_recording p (e : UIEvent) :
  fire (DirectorySettings t p) e
  = invoke p <$> fire (DirectorySettings t (recording p)) e.
Proof.
  destruct e as [[|app] text|[|app]|[|app]|checked|checked]; try reflexivity.
  all: destruct app; cbn; unfold changeInput, clickButton; cbn.
  all: by destruct (enableConfigDirOverrides p).
Qed.
End ComponentFacts.

(** ** What the state operations change *)

Lemma step_toggle t resolved st (checked : bool) (dialog : BrowseOutcome) :
  step t resolved st (OverridesToggled checked, dialog)
  = setOverridesEnabled checked st.
Proof. reflexivity. Qed.

Lemma step_gate_off_app t resolved st (e : UIEvent) (dialog : BrowseOutcome) :
  overridesEnabled st = false →
  e ≠ OverridesToggled true →
  perAppOverride (step t resolved st (e, dialog)) = perAppOverride st
  ∧ overridesEnabled (step t resolved st (e, dialog)) = false.
Proof.
  intros Hoff Hev. unfold step. cbn [fst snd].
  destruct e as [[|app] text|[|app]|[|app]|checked|checked].
  - done.
  - rewrite fire_typed_app. cbn. by rewrite Hoff.
  - cbn. by destruct dialog.
  - rewrite fire_browse_app. cbn. by rewrite Hoff.
  - done.
  - rewrite fire_reset_app. cbn. by rewrite Hoff.
  - destruct checked; [done|]. by cbn.
  - done.
Qed.

(** A whole session with the gate off, in which the user never switches it
    on, leaves every per-app override as it was. *)
Lemma run_gate_off_keeps_per_app t resolved
  (evs : list (UIEvent * BrowseOutcome)) (st : DirectorySettingsState) :
  overridesEnabled st = false →
  Forall (λ ev, fst ev ≠ OverridesToggled true) evs →
  perAppOverride (run t resolved st evs) = perAppOverride st
  ∧ overridesEnabled (run t resolved st evs) = false.
Proof.
  intros Hoff Hevs. revert st Hoff.
  induction Hevs as [|[e dialog] evs He _ IH]; intros st Hoff; [done|].
  destruct (step_gate_off_app t resolved st e dialog Hoff He) as [Hsame Hoff'].
  destruct (IH _ Hoff') as [Hrest Hend]. unfold run in *. cbn [foldl].
  split; [by rewrite Hrest|done].
Qed.

Lemma step_browse_no_selection t resolved st (r : Row) (outcome : BrowseOutcome) :
  selection outcome = None →
  step t resolved st (BrowseClicked r, outcome) = st.
Proof.
  intros Hnone. unfold step. cbn [fst snd].
  destruct r as [|app].
  - cbn. by destruct outcome.
  - rewrite fire_browse_app. cbn.
    destruct (overridesEnabled st); [|done]. by destruct outcome.
Qed.

(** ** Main results *)

(** C1: the effective path is the override, verbatim, whenever one is
    present, the empty string included, and the resolved default when the
    override is absent; this holds for the value [DirectoryInput] displays
    and for the value of the host application's own input. *)
Theorem effectivePath_override_else_default :
  (∀ (override resolvedDefault : string),
     displayValue (Some override) resolvedDefault = override)
  ∧ (∀ resolvedDefault : string, displayValue (Some EmptyString) resolvedDefault = EmptyString)
  ∧ (∀ resolvedDefault : string, displayValue None resolvedDefault = resolvedDefault)
  ∧ (∀ (E : Type) (t : string → string) (p : DirectorySettingsProps E),
       input_value (appConfigInput (DirectorySettings t p))
       = match appConfigDir p with
         | Some override => override
         | None => appConfig (resolvedDirs p)
         end)
  ∧ (∀ (E : Type) (t : string → string) (p : DirectorySettingsProps E)
       (app : AppId),
       input_value (di_input (directoryInputOf (DirectorySettings t p) app))
       = match dirFor p app with
         | Some override => override
         | None => resolvedFor (resolvedDirs p) app
         end).
Proof.
  split; [reflexivity|]. split; [reflexivity|]. split; [reflexivity|].
  split; [reflexivity|].
  intros E t p app. rewrite app_input_value, displayValue_nullish.
  by destruct (dirFor p app).
Qed.

(** C2, as stated, fails: with the gate off and the override
    ["/custom/claude"] passed for claude, the claude input displays
    ["/custom/claude"], not the resolved default ["/home/u/.claude"]. *)
Lemma gate_off_still_displays_override :
  enableConfigDirOverrides gateOffCustomClaude = false
  ∧ resolvedFor (resolvedDirs gateOffCustomClaude) Claude = "/home/u/.claude"
  ∧ input_value
      (di_input (directoryInputOf (DirectorySettings id gateOffCustomClaude) Claude))
    = "/custom/claude"
  ∧ input_value
      (di_input (directoryInputOf (DirectorySettings id gateOffCustomClaude) Claude))
    ≠ resolvedFor (resolvedDirs gateOffCustomClaude) Claude.
Proof. repeat split; done. Qed.

(** C2, amended: the value a per-app input displays does not depend on the
    gate.  It is the override passed for the app when there is one and the
    resolved default otherwise, so it is the resolved default exactly when
    the override is absent or spells the default; the gate only decides
    whether the input is disabled. *)
Theorem displayed_value_ignores_gate {E : Type} (t : string → string)
  (p : DirectorySettingsProps E) (app : AppId) :
  let shown := input_value (di_input (directoryInputOf (DirectorySettings t p) app)) in
  shown = dirFor p app ?? resolvedFor (resolvedDirs p) app
  ∧ (shown = resolvedFor (resolvedDirs p) app
     ↔ dirFor p app = None ∨ dirFor p app = Some (resolvedFor (resolvedDirs p) app))
  ∧ input_disabled (di_input (directoryInputOf (DirectorySettings t p) app))
    = Some (negb (enableConfigDirOverrides p)).
Proof.
  cbn zeta. rewrite app_input_value, displayValue_nullish, app_input_disabled.
  split; [done|]. split; [|done].
  destruct (dirFor p app) as [override|]; cbn.
  - split; [intros ->; by right|]. by intros [?|[= ->]].
  - split; [by left|done].
Qed.

(** C3: for every value of the gate and every app, the app's override input
    is editable exactly when the gate is on, and a text edit reaches
    [onDirectoryChange] exactly then. *)
Theorem override_editable_iff_gate {E : Type} (t : string → string)
  (p : DirectorySettingsProps E) (app : AppId) (text : string) :
  isEditable (di_input (directoryInputOf (DirectorySettings t p) app))
  = isOverrideEditable (enableConfigDirOverrides p)
  ∧ isOverrideEditable (enableConfigDirOverrides p) = enableConfigDirOverrides p
  ∧ fire (DirectorySettings t p) (Typed (AppRow app) text)
    = if enableConfigDirOverrides p
      then Some (onDirectoryChange p app (Some text))
      else None.
Proof.
  unfold isEditable. rewrite app_input_disabled, fire_typed_app.
  split; [|done]. cbn. by destruct (enableConfigDirOverrides p).
Qed.

(** C4: setting the gate, in either direction, changes no other field; and
    any sequence of flips of the gate switch on the panel, false, true,
    false among them, leaves every per-app override and the host override
    as they were. *)
Theorem setOverridesEnabled_mutates_nothing_else (t : string → string)
  (resolved : ResolvedDirectories) (st : DirectorySettingsState) :
  (∀ enabled : bool,
     perAppOverride (setOverridesEnabled enabled st) = perAppOverride st
     ∧ appConfigOverride (setOverridesEnabled enabled st) = appConfigOverride st
     ∧ syncToBothConfigDirs (setOverridesEnabled enabled st) = syncToBothConfigDirs st)
  ∧ perAppOverride
      (setOverridesEnabled false (setOverridesEnabled true (setOverridesEnabled false st)))
    = perAppOverride st
  ∧ (∀ flips : list (bool * BrowseOutcome),
       let st' := run t resolved st (prod_map OverridesToggled id <$> flips) in
       perAppOverride st' = perAppOverride st
       ∧ appConfigOverride st' = appConfigOverride st
       ∧ syncToBothConfigDirs st' = syncToBothConfigDirs st).
Proof.
  split; [done|]. split; [done|].
  intros flips. cbn zeta. revert st.
  induction flips as [|[checked dialog] flips IH]; intros st; [done|].
  unfold run in *. cbn [fmap list_fmap foldl prod_map fst snd id].
  rewrite step_toggle.
  destruct (IH (setOverridesEnabled checked st)) as (Happ & Hhost & Hsync).
  by rewrite Happ, Hhost, Hsync.
Qed.

(** C5: for every primary app, without sync the provider switch targets
    exactly the primary app, one target, whatever the companion is; with
    sync it targets exactly the primary app and its externally configured
    companion directory, which are two targets whenever the companion is a
    directory other than the primary one. *)
Theorem targetsFor_fanout `{Countable DirectoryTarget}
  (appTarget companion : AppId → DirectoryTarget) (primaryApp : AppId) :
  targetsFor appTarget companion false primaryApp = {[ appTarget primaryApp ]}
  ∧ size (targetsFor appTarget companion false primaryApp) = 1
  ∧ targetsFor appTarget companion true primaryApp
    = {[ appTarget primaryApp; companion primaryApp ]}
  ∧ (∀ x, x ∈ targetsFor appTarget companion true primaryApp
          ↔ x = appTarget primaryApp ∨ x = companion primaryApp)
  ∧ (companion primaryApp ≠ appTarget primaryApp →
     size (targetsFor appTarget companion true primaryApp) = 2).
Proof.
  unfold targetsFor.
  split; [done|]. split; [apply size_singleton|]. split; [done|].
  split; [set_solver|].
  intros Hdistinct.
  rewrite size_union by set_solver. by rewrite !size_singleton.
Qed.

Lemma codex_fanout_witness :
  sampleCompanion Codex ≠ sampleAppTarget Codex
  ∧ targetsFor sampleAppTarget sampleCompanion false Codex = {[ "/home/u/.codex" ]}
  ∧ targetsFor sampleAppTarget sampleCompanion true Codex
    = {[ "/home/u/.codex"; "/mnt/shared/companion" ]}
  ∧ size (targetsFor sampleAppTarget sampleCompanion true Codex) = 2.
Proof.
  assert (Hdistinct : sampleCompanion Codex ≠ sampleAppTarget Codex) by done.
  split; [exact Hdistinct|].
  pose proof (targetsFor_fanout sampleAppTarget sampleCompanion Codex)
    as (Hone & _ & Hboth & _ & Htwo).
  split; [exact Hone|]. split; [exact Hboth|exact (Htwo Hdistinct)].
Defined.

(** C6: a browse that completes without a selection, because the user
    cancelled or because the dialog failed with a [BrowseError], leaves the
    whole state as it was, for the host row and for every app; the error is
    still reported. *)
Theorem browse_without_selection_keeps_state (r : Row)
  (outcome : BrowseOutcome) (st : DirectorySettingsState) :
  selection outcome = None →
  fst (completeBrowse r outcome st) = st
  ∧ snd (completeBrowse r outcome st)
    = match outcome with Failed err => Some err | _ => None end
  ∧ (∀ (t : string → string) (resolved : ResolvedDirectories),
       step t resolved st (BrowseClicked r, outcome) = st).
Proof.
  intros Hnone. split; [by destruct outcome|]. split; [by destruct outcome|].
  intros t resolved. by apply step_browse_no_selection.
Qed.

Lemma gemini_cancelled_witness :
  selection Cancelled = None
  ∧ fst (completeBrowse (AppRow Gemini) Cancelled gateOffState) = gateOffState
  ∧ snd (completeBrowse (AppRow Gemini) Cancelled gateOffState) = None.
Proof.
  split; [reflexivity|].
  pose proof (browse_without_selection_keeps_state
                (AppRow Gemini) Cancelled gateOffState eq_refl)
    as (Hstate & Herror & _).
  split; [exact Hstate|exact Herror].
Defined.

(** C7: whatever override an app had, absent, empty or any string, after
    [resetPerAppOverride] the effective path of that app is its resolved
    default, as computed and as displayed by the panel. *)
Theorem reset_then_effectivePath_is_default (t : string → string)
  (resolved : ResolvedDirectories) (app : AppId) (st : DirectorySettingsState) :
  perAppOverride (resetPerAppOverride app st) app = None
  ∧ displayValue (perAppOverride (resetPerAppOverride app st) app)
      (resolvedFor resolved app)
    = resolvedFor resolved app
  ∧ input_value
      (di_input
         (directoryInputOf
            (DirectorySettings t (propsOf (resetPerAppOverride app st) resolved)) app))
    = resolvedFor resolved app.
Proof.
  assert (Hreset : perAppOverride (resetPerAppOverride app st) app = None)
    by apply fn_lookup_insert.
  split; [done|]. split; [by rewrite Hreset|].
  rewrite app_input_value.
  replace (dirFor (propsOf (resetPerAppOverride app st) resolved) app)
    with (perAppOverride (resetPerAppOverride app st) app) by (by destruct app).
  by rewrite Hreset.
Qed.

(** C8: the host application's own directory row is not gated.  Whatever
    the gate, its input and its browse and reset buttons are enabled and
    reach their callbacks, while the input and both buttons of each of the
    three per-app rows are disabled exactly when the gate is off. *)
Theorem appConfig_row_not_gated {E : Type} (t : string → string)
  (p : DirectorySettingsProps E) :
  let v := DirectorySettings t p in
  (isEditable (inputAt v HostRow) = true
   ∧ isClickable (browseAt v HostRow) = true
   ∧ isClickable (resetAt v HostRow) = true)
  ∧ (∀ text, fire v (Typed HostRow text) = Some (onAppConfigChange p (Some text)))
  ∧ fire v (BrowseClicked HostRow) = Some (onBrowseAppConfig p)
  ∧ fire v (ResetClicked HostRow) = Some (onResetAppConfig p)
  ∧ (∀ app,
       isEditable (inputAt v (AppRow app)) = enableConfigDirOverrides p
       ∧ isClickable (browseAt v (AppRow app)) = enableConfigDirOverrides p
       ∧ isClickable (resetAt v (AppRow app)) = enableConfigDirOverrides p).
Proof.
  cbn zeta. split; [done|]. split; [done|]. split; [done|]. split; [done|].
  intros app. unfold isEditable, isClickable. cbn [inputAt browseAt resetAt].
  rewrite app_input_disabled, app_browse_disabled, app_reset_disabled.
  cbn. by destruct (enableConfigDirOverrides p).
Qed.

(** C9: while the gate is off, the text input, the browse button and the
    reset button of every app are disabled, the events on them invoke no
    callback, and no event on the panel whatsoever invokes
    [onDirectoryChange], [onBrowseDirectory] or [onResetDirectory]. *)
Theorem gate_off_no_per_app_callback {E : Type} (t : string → string)
  (p : DirectorySettingsProps E) :
  enableConfigDirOverrides p = false →
  (∀ app,
     let row := directoryInputOf (DirectorySettings t p) app in
     truthy (input_disabled (di_input row)) = true
     ∧ truthy (button_disabled (di_browse row)) = true
     ∧ truthy (button_disabled (di_reset row)) = true)
  ∧ (∀ app text, fire (DirectorySettings t p) (Typed (AppRow app) text) = None)
  ∧ (∀ app, fire (DirectorySettings t p) (BrowseClicked (AppRow app)) = None)
  ∧ (∀ app, fire (DirectorySettings t p) (ResetClicked (AppRow app)) = None)
  ∧ (∀ (e : UIEvent) (c : Call),
       fire (DirectorySettings t (recording p)) e = Some c → callApp c = None).
Proof.
  intros Hoff. split.
  { intros app. cbn zeta.
    by rewrite app_input_disabled, app_browse_disabled, app_reset_disabled, Hoff. }
  split; [intros app text; by rewrite fire_typed_app, Hoff|].
  split; [intros app; by rewrite fire_browse_app, Hoff|].
  split; [intros app; by rewrite fire_reset_app, Hoff|].
  intros e c.
  destruct e as [[|app] text|[|app]|[|app]|checked|checked].
  2: rewrite fire_typed_app. 4: rewrite fire_browse_app. 6: rewrite fire_reset_app.
  all: cbn; rewrite ?Hoff; by intros [= <-].
Qed.

Lemma sample_gate_off_witness :
  enableConfigDirOverrides gateOffCustomClaude = false
  ∧ fire (DirectorySettings id gateOffCustomClaude) (Typed (AppRow Claude) "/tmp/x") = None
  ∧ fire (DirectorySettings id gateOffCustomClaude) (BrowseClicked (AppRow Codex)) = None
  ∧ fire (DirectorySettings id gateOffCustomClaude) (ResetClicked (AppRow Gemini)) = None.
Proof.
  split; [reflexivity|].
  pose proof (gate_off_no_per_app_callback id gateOffCustomClaude eq_refl)
    as (_ & Htyped & Hbrowse & Hreset & _).
  split; [exact (Htyped Claude "/tmp/x")|].
  split; [exact (Hbrowse Codex)|exact (Hreset Gemini)].
Defined.

(** C10: a text edit invokes the change callback of its row with the text
    now in the field, as a string: an edit of the host input always, an edit
    of a per-app input whenever that input is enabled; clearing the field
    passes the empty string.  No event on the panel passes an absent value
    to a change callback; what remains for clearing an override is the
    reset button, which invokes the reset callback of its row. *)
Theorem typing_passes_text_never_absent {E : Type} (t : string → string)
  (p : DirectorySettingsProps E) :
  let v := DirectorySettings t (recording p) in
  (∀ text, fire v (Typed HostRow text) = Some (AppConfigChange (Some text)))
  ∧ (∀ app text,
       fire v (Typed (AppRow app) text)
       = if enableConfigDirOverrides p
         then Some (DirectoryChange app (Some text))
         else None)
  ∧ fire v (Typed HostRow EmptyString) = Some (AppConfigChange (Some EmptyString))
  ∧ (∀ (r : Row) (text : string) (c : Call),
       fire v (Typed r text) = Some c → callValue c = Some (Some text))
  ∧ (∀ (e : UIEvent) (c : Call), fire v e = Some c → callValue c ≠ Some None)
  ∧ fire v (ResetClicked HostRow) = Some ResetAppConfig
  ∧ (∀ app,
       fire v (ResetClicked (AppRow app))
       = if enableConfigDirOverrides p then Some (ResetDirectory app) else None).
Proof.
  cbn zeta. split; [done|].
  split; [intros app text; by rewrite fire_typed_app|].
  split; [done|]. split.
  { intros [|app] text c; [by intros [= <-]|].
    rewrite fire_typed_app. cbn.
    destruct (enableConfigDirOverrides p); [by intros [= <-]|done]. }
  split.
  { intros e c.
    destruct e as [[|app] text|[|app]|[|app]|checked|checked].
    2: rewrite fire_typed_app. 4: rewrite fire_browse_app. 6: rewrite fire_reset_app.
    all: cbn; destruct (enableConfigDirOverrides p); by intros [= <-]. }
  split; [done|]. intros app. by rewrite fire_reset_app.
Qed.

(** ** Consequences for a session *)

(** In a session, an override that was present can only become absent by a
    click on the reset button of its row. *)
Lemma step_absent_only_by_reset t resolved (st : DirectorySettingsState)
  (e : UIEvent) (dialog : BrowseOutcome) (r : Row) :
  is_Some (overrideAt st r) →
  overrideAt (step t resolved st (e, dialog)) r = None →
  e = ResetClicked r.
Proof.
  intros [old Hold] Habsent. unfold step in Habsent. cbn [fst snd] in Habsent.
  destruct e as [[|app] text|[|app]|[|app]|checked|checked].
  - destruct r; cbn in *; congruence.
  - rewrite fire_typed_app in Habsent. cbn in Habsent.
    destruct (overridesEnabled st); [|congruence].
    destruct r as [|app']; cbn in *; [congruence|].
    destruct (decide (app = app')) as [->|Hne].
    + by rewrite fn_lookup_insert in Habsent.
    + rewrite fn_lookup_insert_ne in Habsent by done. congruence.
  - destruct dialog, r; cbn in *; congruence.
  - rewrite fire_browse_app in Habsent. cbn in Habsent.
    destruct (overridesEnabled st); [|congruence].
    destruct dialog; cbn in Habsent; [|congruence..].
    destruct r as [|app']; cbn in *; [congruence|].
    destruct (decide (app = app')) as [->|Hne].
    + by rewrite fn_lookup_insert in Habsent.
    + rewrite fn_lookup_insert_ne in Habsent by done. congruence.
  - destruct r; [done|]. cbn in *. congruence.
  - rewrite fire_reset_app in Habsent. cbn in Habsent.
    destruct (overridesEnabled st); [|congruence].
    destruct r as [|app']; cbn in *; [congruence|].
    destruct (decide (app = app')) as [->|Hne]; [done|].
    rewrite fn_lookup_insert_ne in Habsent by done. congruence.
  - destruct r; cbn in *; congruence.
  - destruct r; cbn in *; congruence.
Qed.

(** The spec's scenario: with the gate off and ["/custom/claude"] stored for
    claude, the panel shows the stored override in a disabled input; turning
    the gate on keeps showing it, now editable. *)
Example scenario_stored_override_gate_off :
  let shown st :=
    inputAt (DirectorySettings id (propsOf st sampleResolved)) (AppRow Claude) in
  input_value (shown gateOffState) = "/custom/claude"
  ∧ isEditable (shown gateOffState) = false
  ∧ input_value (shown (setOverridesEnabled true gateOffState)) = "/custom/claude"
  ∧ isEditable (shown (setOverridesEnabled true gateOffState)) = true.
Proof. repeat split. Qed.

(** ** Further properties of the component *)

Lemma row_input_value {E : Type} (t : string → string)
  (p : DirectorySettingsProps E) (r : Row) :
  input_value (inputAt (DirectorySettings t p) r)
  = overrideProp p r ?? defaultProp p r.
Proof. destruct r as [|app]; [done|]. cbn [inputAt]. by rewrite app_input_value. Qed.

Lemma fire_recording_cases {E : Type} (t : string → string)
  (p : DirectorySettingsProps E) (e : UIEvent) :
  fire (DirectorySettings t (recording p)) e
  = match e with
    | Typed HostRow text => Some (AppConfigChange (Some text))
    | Typed (AppRow app) text =>
        if enableConfigDirOverrides p
        then Some (DirectoryChange app (Some text)) else None
    | BrowseClicked HostRow => Some BrowseAppConfig
    | BrowseClicked (AppRow app) =>
        if enableConfigDirOverrides p then Some (BrowseDirectory app) else None
    | ResetClicked HostRow => Some ResetAppConfig
    | ResetClicked (AppRow app) =>
        if enableConfigDirOverrides p then Some (ResetDirectory app) else None
    | OverridesToggled checked => Some (EnableConfigDirOverridesChange checked)
    | SyncToggled checked => Some (SyncProviderSwitchToBothConfigDirsChange checked)
    end.
Proof.
  destruct e as [[|app] text|[|app]|[|app]|checked|checked]; try reflexivity.
  - by rewrite fire_typed_app.
  - by rewrite fire_browse_app.
  - by rewrite fire_reset_app.
Qed.

(** X1: in any [DirectoryInput], whatever its props, the text input, the
    browse button and the reset button are enabled or disabled together:
    all three follow the one [disabled] prop, an omitted [disabled] leaves
    all three enabled, and a disabled row invokes none of its callbacks. *)
Theorem directoryInput_controls_follow_disabled {E : Type} (t : string → string)
  (p : DirectoryInputProps E) (text : string) :
  let row := DirectoryInput t p in
  isEditable (di_input row) = negb (truthy (disabled p))
  ∧ isClickable (di_browse row) = isEditable (di_input row)
  ∧ isClickable (di_reset row) = isEditable (di_input row)
  ∧ changeInput (di_input row) text
    = (if isEditable (di_input row) then Some (onChange p (Some text)) else None)
  ∧ clickButton (di_browse row)
    = (if isEditable (di_input row) then Some (onBrowse p) else None)
  ∧ clickButton (di_reset row)
    = (if isEditable (di_input row) then Some (onReset p) else None).
Proof.
  cbn zeta. unfold isEditable, isClickable, changeInput, clickButton. cbn.
  by destruct (truthy (disabled p)).
Qed.

(** X2: [DirectoryInput] shows a description exactly when one is passed and
    is not the empty string, and [DirectorySettings], which passes none,
    never shows a description on any of its three rows. *)
Theorem description_shown_iff_nonempty {E : Type} (t : string → string) :
  (∀ p : DirectoryInputProps E,
     di_description (DirectoryInput t p) = None
     ↔ description p = None ∨ description p = Some EmptyString)
  ∧ (∀ (p : DirectoryInputProps E) (d : string),
       di_description (DirectoryInput t p) = Some d
       ↔ description p = Some d ∧ d ≠ EmptyString)
  ∧ (∀ (p : DirectorySettingsProps E) (app : AppId),
       di_description (directoryInputOf (DirectorySettings t p) app) = None).
Proof.
  split; [|split].
  - intros p. cbn. unfold shownDescription.
    destruct (description p) as [d|]; [|by split; [left|]].
    case_decide as Hd.
    + subst d. by split; [right|].
    + split; [done|]. by intros [|[= ->]].
  - intros p d. cbn. unfold shownDescription.
    destruct (description p) as [d'|]; [|by split; [|intros []]].
    case_decide as Hd.
    + subst d'. split; [done|]. by intros [[= <-] Hne].
    + split; [by intros [= <-]|]. by intros [[= <-] _].
  - intros p app. by destruct app.
Qed.

(** X3: on the values the expression can meet at run time, an override that
    is present wins, else a resolved default that is present, else the
    empty string; with the resolved default a string, as declared, this is
    [displayValue], and the result is empty only when the value it took was
    empty or both were missing. *)
Theorem displayValueUnchecked_precedence :
  (∀ (override : string) (resolvedValue : option string),
     displayValueUnchecked (Some override) resolvedValue = override)
  ∧ (∀ resolvedDefault : string,
       displayValueUnchecked None (Some resolvedDefault) = resolvedDefault)
  ∧ displayValueUnchecked None None = EmptyString
  ∧ (∀ (value : option string) (resolvedValue : string),
       displayValueUnchecked value (Some resolvedValue)
       = displayValue value resolvedValue)
  ∧ (∀ value resolvedValue : option string,
       displayValueUnchecked value resolvedValue = EmptyString
       ↔ value = Some EmptyString
         ∨ (value = None ∧ resolvedValue = Some EmptyString)
         ∨ (value = None ∧ resolvedValue = None)).
Proof.
  split; [done|]. split; [done|]. split; [done|].
  split; [by intros [?|] ?|].
  intros [v|] [r|]; cbn; split.
  all: try (intros ->; by auto).
  all: try (intros [[= ->]|[[? [= ->]]|[? ?]]]; done).
  all: try done.
  all: auto.
Qed.

(** X4: the input of a row, the host row included, is shown empty exactly
    when the row's override is the empty string, or is absent while the
    resolved default is itself empty; an absent override over a non-empty
    default never leaves the field empty. *)
Theorem row_shown_empty_iff {E : Type} (t : string → string)
  (p : DirectorySettingsProps E) (r : Row) :
  input_value (inputAt (DirectorySettings t p) r) = EmptyString
  ↔ overrideProp p r = Some EmptyString
    ∨ (overrideProp p r = None ∧ defaultProp p r = EmptyString).
Proof.
  rewrite row_input_value.
  destruct (overrideProp p r) as [override|]; cbn.
  - split; [intros ->; by left|]. by intros [[= ->]|[? _]].
  - split; [by right|]. by intros [?|[_ ?]].
Qed.

(** X5: passing another override for one app changes nothing on the other
    rows: the rows of the other apps are rendered the same in full, value,
    placeholder, disabled flags and handlers, and so are the host row and
    the two switches; the changed row shows the new override, or the
    resolved default when the new override is absent. *)
Theorem other_rows_unaffected_by_override {E : Type} (t : string → string)
  (p : DirectorySettingsProps E) (app : AppId) (value : option string) :
  let v := DirectorySettings t p in
  let v' := DirectorySettings t (withDir app value p) in
  (∀ other, other ≠ app → directoryInputOf v' other = directoryInputOf v other)
  ∧ appConfigInput v' = appConfigInput v
  ∧ appConfigBrowse v' = appConfigBrowse v
  ∧ appConfigReset v' = appConfigReset v
  ∧ overridesSwitch v' = overridesSwitch v
  ∧ syncSwitch v' = syncSwitch v
  ∧ input_value (di_input (directoryInputOf v' app))
    = value ?? resolvedFor (resolvedDirs p) app.
Proof.
  cbn zeta. split; [|by destruct app].
  intros other Hother. by destruct app, other.
Qed.

(** X6: the gate decides nothing but the disabled state of the per-app
    rows and the position of its own switch: at either position every row
    shows the same value and placeholder and carries the same handlers,
    labels and titles, the host row stays as it is, and the sync switch
    keeps its position. *)
Theorem gate_changes_only_disabled {E : Type} (t : string → string)
  (p : DirectorySettingsProps E) (enabled : bool) :
  let v := DirectorySettings t p in
  let v' := DirectorySettings t (withGate enabled p) in
  (∀ r, input_value (inputAt v' r) = input_value (inputAt v r)
        ∧ placeholderAt v' r = placeholderAt v r
        ∧ input_onChange (inputAt v' r) = input_onChange (inputAt v r)
        ∧ button_onClick (browseAt v' r) = button_onClick (browseAt v r)
        ∧ button_onClick (resetAt v' r) = button_onClick (resetAt v r)
        ∧ button_title (browseAt v' r) = button_title (browseAt v r)
        ∧ button_title (resetAt v' r) = button_title (resetAt v r))
  ∧ (∀ app, di_label (directoryInputOf v' app) = di_label (directoryInputOf v app)
            ∧ di_description (directoryInputOf v' app)
              = di_description (directoryInputOf v app))
  ∧ appConfigInput v' = appConfigInput v
  ∧ appConfigBrowse v' = appConfigBrowse v
  ∧ appConfigReset v' = appConfigReset v
  ∧ syncSwitch v' = syncSwitch v
  ∧ switch_checked (overridesSwitch v') = enabled
  ∧ (∀ app, isEditable (inputAt v' (AppRow app)) = enabled).
Proof.
  cbn zeta. split; [by intros [|[]]|]. split; [by intros []|].
  repeat (split; [done|]). intros []; by destruct enabled.
Qed.

(** X7: a callback is only ever invoked by a control of its own kind on its
    own row: an event on a text input reaches a change callback, a click on
    a browse or reset button the browse or reset callback, and for a row of
    an app the callback is given that very app; the two switches reach
    their own callbacks and no other. *)
Theorem event_reaches_own_callback {E : Type} (t : string → string)
  (p : DirectorySettingsProps E) (e : UIEvent) (c : Call) :
  fire (DirectorySettings t (recording p)) e = Some c →
  callKind c = eventKind e ∧ callRow c = eventRow e.
Proof.
  rewrite fire_recording_cases.
  destruct e as [[|app] text|[|app]|[|app]|checked|checked];
    try destruct (enableConfigDirOverrides p); by intros [= <-].
Qed.

Lemma codex_browse_reaches_own_callback :
  fire (DirectorySettings id (recording (withGate true gateOffCustomClaude)))
    (BrowseClicked (AppRow Codex)) = Some (BrowseDirectory Codex)
  ∧ callKind (BrowseDirectory Codex) = BrowseButton
  ∧ callRow (BrowseDirectory Codex) = Some (AppRow Codex).
Proof.
  split; [reflexivity|].
  exact (event_reaches_own_callback id (withGate true gateOffCustomClaude)
           (BrowseClicked (AppRow Codex)) (BrowseDirectory Codex) eq_refl).
Defined.

(** X8: no two events on the panel lead to the same call: from the callback
    invoked and its arguments one can tell the control that was used and,
    for a text input or a switch, the text typed or the position chosen. *)
Theorem dispatch_is_injective {E : Type} (t : string → string)
  (p : DirectorySettingsProps E) (e e' : UIEvent) (c : Call) :
  fire (DirectorySettings t (recording p)) e = Some c →
  fire (DirectorySettings t (recording p)) e' = Some c →
  e = e'.
Proof.
  rewrite !fire_recording_cases.
  destruct (enableConfigDirOverrides p);
    destruct e as [[|app] text|[|app]|[|app]|checked|checked];
    destruct e' as [[|app'] text'|[|app']|[|app']|checked'|checked'];
    intros He He'; by simplify_eq.
Qed.

Lemma host_typing_determines_event :
  fire (DirectorySettings id (recording gateOffCustomClaude)) (Typed HostRow "/srv/cfg")
  = Some (AppConfigChange (Some "/srv/cfg"))
  ∧ ∀ e' : UIEvent,
      fire (DirectorySettings id (recording gateOffCustomClaude)) e'
      = Some (AppConfigChange (Some "/srv/cfg")) →
      Typed HostRow "/srv/cfg" = e'.
Proof.
  split; [reflexivity|].
  intros e' He'.
  exact (dispatch_is_injective id gateOffCustomClaude (Typed HostRow "/srv/cfg") e'
           (AppConfigChange (Some "/srv/cfg")) eq_refl He').
Defined.

(** X9: the calls the panel can make are exactly these: every callback of
    the host row and of the two switches at any time, every per-app callback
    when the gate is on and none of them when it is off, and a change
    callback only with a string, never with an absent value.  So with the
    gate on no callback prop is left without a control that invokes it. *)
Theorem reachable_calls {E : Type} (t : string → string)
  (p : DirectorySettingsProps E) (c : Call) :
  (∃ e, fire (DirectorySettings t (recording p)) e = Some c)
  ↔ callValue c ≠ Some None
    ∧ (enableConfigDirOverrides p = true ∨ callApp c = None).
Proof.
  split.
  - intros [e He]. rewrite fire_recording_cases in He.
    destruct e as [[|app] text|[|app]|[|app]|checked|checked];
      try destruct (enableConfigDirOverrides p); simplify_eq; cbn; auto.
  - intros [Hvalue Hlive].
    destruct c as [[text|]| | |checked|checked|app [text|]|app|app]; cbn in *;
      try done.
    + by exists (Typed HostRow text).
    + by exists (BrowseClicked HostRow).
    + by exists (ResetClicked HostRow).
    + by exists (OverridesToggled checked).
    + by exists (SyncToggled checked).
    + destruct Hlive as [Hon|?]; [|done].
      exists (Typed (AppRow app) text). by rewrite fire_typed_app; cbn; rewrite Hon.
    + destruct Hlive as [Hon|?]; [|done].
      exists (BrowseClicked (AppRow app)). by rewrite fire_browse_app; cbn; rewrite Hon.
    + destruct Hlive as [Hon|?]; [|done].
      exists (ResetClicked (AppRow app)). by rewrite fire_reset_app; cbn; rewrite Hon.
Qed.



Lemma displayedOver_of_fresh_cell
  (renders : list (option string * string))
  (cell : option (MemoCell (option string * string) string)) :
  match cell with
  | Some m => memo_value m = displayValue (fst (memo_deps m)) (snd (memo_deps m))
  | None => True
  end →
  displayedOver cell renders
  = (λ vr, displayValue (fst vr) (snd vr)) <$> renders.
Proof.
  revert cell.
  induction renders as [|[value resolvedValue] rest IH]; intros cell Hcell; [done|].
  cbn [displayedOver fmap list_fmap fst snd].
  unfold displayValueMemo, useMemo.
  destruct cell as [m|].
  - case_decide as Hdeps.
    + rewrite (IH (Some m) Hcell), Hcell, Hdeps. done.
    + rewrite IH; done.
  - rewrite IH; done.
Qed.

(** X11: the memoised display value is never stale.  Over any sequence of
    renders of one [DirectoryInput], with the override and the resolved
    default changing or not from one render to the next, the value shown at
    each render is the one computed from the props of that render. *)
Theorem memoised_display_never_stale (renders : list (option string * string)) :
  displayedOver None renders
  = (λ vr, displayValue (fst vr) (snd vr)) <$> renders
  ∧ length (displayedOver None renders) = length renders.
Proof.
  assert (Hshown : displayedOver None renders
                   = (λ vr, displayValue (fst vr) (snd vr)) <$> renders)
    by by apply displayedOver_of_fresh_cell.
  split; [done|]. by rewrite Hshown, length_fmap.
Qed.
